(** * dso-geo-coordinate-fuzzer: a shallow embedding of [src/main.py]

    The development models the two functions that carry the behaviour of the
    tool, [fuzz_coordinate] (main.py:29-69) and [process_file]
    (main.py:71-138), together with the exit status of [main]
    (main.py:141-151).

    Modelling choices.
    - Text is a [string] whose characters are the code points 0..255.
    - A Python [float] is [pyfloat]: a real number, an infinity or NaN.
      Arithmetic on finite values is exact real arithmetic (binary64 rounding,
      overflow and signed zeros are abstracted away); the special values
      follow IEEE 754.
    - The two effects of the program, the global random generator and the
      files/log it writes, are threaded through an explicit state; a raised
      exception is a result of the computation and keeps the state reached
      so far.
    - Opening the files and detecting the encoding (main.py:92-99) are outside
      the model: [process_file] starts from the decoded lines that iterating
      over the input file yields. *)

From Stdlib Require Import Reals Lra Lia ZArith QArith Qreals.
From Stdlib Require Import List String Ascii Bool DecimalString.
Import ListNotations.

Local Open Scope string_scope.

(** ** Strings: the [str] methods used by the program *)

Module PyStr.

(** [str.isspace] on one character, restricted to the code points 0..255:
    TAB, LF, VT, FF, CR, FS, GS, RS, US, SPACE, NEL and NBSP. *)
Definition isspace (c : ascii) : bool :=
  let n := N_of_ascii c in
  (((9 <=? n) && (n <=? 13)) || ((28 <=? n) && (n <=? 32))
   || (n =? 133) || (n =? 160))%N.

(** The leading, then the trailing characters that satisfy [space]
    removed. *)
Fixpoint lstrip (space : ascii -> bool) (s : string) : string :=
  match s with
  | EmptyString => EmptyString
  | String c s' => if space c then lstrip space s' else s
  end.

Fixpoint rstrip (space : ascii -> bool) (s : string) : string :=
  match s with
  | EmptyString => EmptyString
  | String c s' =>
      match rstrip space s' with
      | EmptyString => if space c then EmptyString else String c EmptyString
      | t => String c t
      end
  end.

(** [s.strip()]: leading and trailing whitespace removed. *)
Definition strip (s : string) : string := rstrip isspace (lstrip isspace s).

(** The scan of [s.split(sep)] for a non-empty [sep]: [cur] is the field
    being read, [skip] the number of characters of a separator occurrence
    still to be passed over. Occurrences are taken left to right and do not
    overlap. *)
Fixpoint split_from (sep s : string) (skip : nat) (cur : string) : list string :=
  match s with
  | EmptyString => [cur]
  | String c s' =>
      match skip with
      | S k => split_from sep s' k cur
      | O =>
          if prefix sep s
          then cur :: split_from sep s' (length sep - 1) EmptyString
          else split_from sep s' O (cur ++ String c EmptyString)
      end
  end.

(** [sep.join(parts)]. *)
Definition join (sep : string) (parts : list string) : string :=
  concat sep parts.

Definition newline : string := String (ascii_of_nat 10) EmptyString.

(** The lines that iterating over a text file yields: the decoded text cut
    after every line feed, each line keeping its terminator (the last one has
    none when the text does not end with a line feed). Universal-newline
    translation has already happened when the text was decoded. *)
Fixpoint lines_from (s cur : string) : list string :=
  match s with
  | EmptyString => match cur with EmptyString => [] | _ => [cur] end
  | String c s' =>
      if Ascii.eqb c (ascii_of_nat 10)
      then (cur ++ newline) :: lines_from s' EmptyString
      else lines_from s' (cur ++ String c EmptyString)
  end.

Definition lines (text : string) : list string := lines_from text EmptyString.

End PyStr.

(** ** The literal grammar of [float(str)] *)

Module FloatLit.

(** What a literal denotes, before it becomes a [float]. *)
Inductive literal : Type :=
| LitFinite (q : Q)
| LitInf (negative : bool)
| LitNaN.

(** The whitespace [float] skips around a literal: [str.isspace] without
    FS, GS, RS and US. *)
Definition is_space (c : ascii) : bool :=
  let n := N_of_ascii c in
  (((9 <=? n) && (n <=? 13)) || (n =? 32) || (n =? 133) || (n =? 160))%N.

Definition is_digit (c : ascii) : bool :=
  let n := N_of_ascii c in ((48 <=? n) && (n <=? 57))%N.

Definition digit_value (c : ascii) : Z := Z.of_N (N_of_ascii c) - 48.

Definition lower (c : ascii) : ascii :=
  let n := N_of_ascii c in
  if ((65 <=? n) && (n <=? 90))%N then ascii_of_N (n + 32) else c.

Fixpoint lowercase (s : string) : string :=
  match s with
  | EmptyString => EmptyString
  | String c s' => String (lower c) (lowercase s')
  end.

Definition underscore : ascii := "_"%char.

Fixpoint has_underscore (s : string) : bool :=
  match s with
  | EmptyString => false
  | String c s' => Ascii.eqb c underscore || has_underscore s'
  end.

(** Underscores are accepted only between two digits and are dropped; [prev]
    is the character read before, if any. *)
Fixpoint drop_underscores (prev : option ascii) (s : string) : option string :=
  let prev_is_digit := match prev with Some p => is_digit p | None => false end in
  let prev_is_underscore :=
    match prev with Some p => Ascii.eqb p underscore | None => false end in
  match s with
  | EmptyString => if prev_is_underscore then None else Some EmptyString
  | String c s' =>
      if Ascii.eqb c underscore
      then if prev_is_digit then drop_underscores (Some c) s' else None
      else if prev_is_underscore && negb (is_digit c) then None
           else option_map (String c) (drop_underscores (Some c) s')
  end.

Definition without_underscores (s : string) : option string :=
  if has_underscore s then drop_underscores None s else Some s.

(** A run of decimal digits: the value accumulated on [acc], the number of
    digits read added to [n], and the rest of the text. *)
Fixpoint digits (s : string) (acc : Z) (n : nat) : Z * nat * string :=
  match s with
  | String c s' =>
      if is_digit c then digits s' (10 * acc + digit_value c) (S n)
      else (acc, n, s)
  | EmptyString => (acc, n, s)
  end.

(** An optional sign; [true] stands for a minus. *)
Definition sign (s : string) : bool * string :=
  match s with
  | String "-"%char s' => (true, s')
  | String "+"%char s' => (false, s')
  | _ => (false, s)
  end.

(** The exponent part: absent, or [e]/[E], an optional sign and at least one
    digit; the whole rest of the text has to be consumed. *)
Definition exponent (s : string) : option Z :=
  match s with
  | EmptyString => Some 0%Z
  | String c s' =>
      if Ascii.eqb (lower c) "e"%char then
        let '(neg, s1) := sign s' in
        match digits s1 0 0 with
        | (_, O, _) => None
        | (e, _, EmptyString) => Some (if neg then (- e)%Z else e)
        | _ => None
        end
      else None
  end.

(** Digits, an optional point and digits, with at least one digit in all,
    then the exponent part. The value is [mantissa * 10 ^ (e - fraction digits)]. *)
Definition decimal (s : string) : option Q :=
  let '(ip, ni, s1) := digits s 0 0 in
  let '(m, nf, s2) :=
    match s1 with
    | String "."%char s1' => digits s1' ip 0
    | _ => (ip, O, s1)
    end in
  match (ni + nf)%nat with
  | O => None
  | _ =>
      match exponent s2 with
      | Some e => Some (inject_Z m * Qpower (inject_Z 10) (e - Z.of_nat nf))%Q
      | None => None
      end
  end.

(** A sign followed by [inf], [infinity] or [nan] in any letter case, or by a
    decimal number. *)
Definition signed (s : string) : option literal :=
  let '(neg, body) := sign s in
  let word := lowercase body in
  if (word =? "inf") || (word =? "infinity") then Some (LitInf neg)
  else if word =? "nan" then Some LitNaN
  else match decimal body with
       | Some q => Some (LitFinite (if neg then (- q)%Q else q))
       | None => None
       end.

(** The whole conversion: underscores checked and dropped, surrounding
    whitespace stripped, and what is left read as one literal. *)
Definition parse (s : string) : option literal :=
  match without_underscores s with
  | None => None
  | Some t =>
      match PyStr.rstrip is_space (PyStr.lstrip is_space t) with
      | EmptyString => None
      | body => signed body
      end
  end.

End FloatLit.

(** ** Numbers, objects and exceptions *)

(** A Python [float]. *)
Inductive pyfloat : Type :=
| Fin (x : R)
| Inf (negative : bool)
| NaN.

(** A Python number: an [int] or a [float]. [max] and [min] return one of
    their arguments as it is, so the result of clipping can be either. *)
Inductive pynum : Type :=
| PyInt (n : Z)
| PyFloat (f : pyfloat).

(** What [fuzz_coordinate] is given as a coordinate: text or a number. *)
Inductive pyobj : Type :=
| PyStr (s : string)
| PyNum (v : pynum).

Inductive exn : Type :=
| ValueError (msg : string)
| IndexError (msg : string)
| StopIteration.

Inductive result (A : Type) : Type :=
| Ok (a : A)
| Raise (e : exn).

Arguments Ok {A} a.
Arguments Raise {A} e.

Module PyFloat.

Definition of_literal (l : FloatLit.literal) : pyfloat :=
  match l with
  | FloatLit.LitFinite q => Fin (Q2R q)
  | FloatLit.LitInf negative => Inf negative
  | FloatLit.LitNaN => NaN
  end.

Definition of_num (v : pynum) : pyfloat :=
  match v with
  | PyInt n => Fin (IZR n)
  | PyFloat f => f
  end.

(** [a < b] and [a <= b]: every comparison with NaN is false. *)
Definition lt (a b : pyfloat) : bool :=
  match a, b with
  | NaN, _ | _, NaN => false
  | Fin x, Fin y => if Rlt_dec x y then true else false
  | Fin _, Inf negative => negb negative
  | Inf negative, Fin _ => negative
  | Inf n1, Inf n2 => n1 && negb n2
  end.

Definition le (a b : pyfloat) : bool :=
  match a, b with
  | NaN, _ | _, NaN => false
  | Fin x, Fin y => if Rle_dec x y then true else false
  | Fin _, Inf negative => negb negative
  | Inf negative, Fin _ => negative
  | Inf n1, Inf n2 => n1 || negb n2
  end.

(** [a + b]: opposite infinities give NaN. *)
Definition add (a b : pyfloat) : pyfloat :=
  match a, b with
  | NaN, _ | _, NaN => NaN
  | Fin x, Fin y => Fin (x + y)
  | Fin _, Inf n | Inf n, Fin _ => Inf n
  | Inf n1, Inf n2 => if Bool.eqb n1 n2 then Inf n1 else NaN
  end.

(** The sign of [n * x] for an infinity of sign [n] and a finite [x]. *)
Definition mul_inf (n : bool) (x : R) : pyfloat :=
  if Req_dec_T x 0 then NaN
  else Inf (xorb n (if Rlt_dec x 0 then true else false)).

(** [a * b]: an infinity times zero gives NaN. *)
Definition mul (a b : pyfloat) : pyfloat :=
  match a, b with
  | NaN, _ | _, NaN => NaN
  | Fin x, Fin y => Fin (x * y)
  | Fin x, Inf n | Inf n, Fin x => mul_inf n x
  | Inf n1, Inf n2 => Inf (xorb n1 n2)
  end.

End PyFloat.

(** Comparison of numbers, [int] against [float] included, is by value. *)
Definition py_lt (a b : pynum) : bool :=
  PyFloat.lt (PyFloat.of_num a) (PyFloat.of_num b).

Definition py_le (a b : pynum) : bool :=
  PyFloat.le (PyFloat.of_num a) (PyFloat.of_num b).

(** [min(a, b)] keeps [a] unless [b < a]; [max(a, b)] keeps [a] unless
    [b > a]. *)
Definition py_min (a b : pynum) : pynum := if py_lt b a then b else a.
Definition py_max (a b : pynum) : pynum := if py_lt a b then b else a.

(** [float(o)]. Text that is not a literal raises [ValueError]. *)
Definition float (o : pyobj) : result pyfloat :=
  match o with
  | PyStr s =>
      match FloatLit.parse s with
      | Some l => Ok (PyFloat.of_literal l)
      | None => Raise (ValueError "could not convert string to float")
      end
  | PyNum v => Ok (PyFloat.of_num v)
  end.

(** The functions of the [math] module that the program calls. *)
Module math.

Definition pi : pyfloat := Fin PI.

Definition sqrt (x : pyfloat) : result pyfloat :=
  match x with
  | Fin r =>
      if Rlt_dec r 0 then Raise (ValueError "math domain error")
      else Ok (Fin (R_sqrt.sqrt r))
  | Inf false => Ok (Inf false)
  | Inf true => Raise (ValueError "math domain error")
  | NaN => Ok NaN
  end.

Definition sin (x : pyfloat) : result pyfloat :=
  match x with
  | Fin r => Ok (Fin (Rtrigo_def.sin r))
  | Inf _ => Raise (ValueError "math domain error")
  | NaN => Ok NaN
  end.

Definition cos (x : pyfloat) : result pyfloat :=
  match x with
  | Fin r => Ok (Fin (Rtrigo_def.cos r))
  | Inf _ => Raise (ValueError "math domain error")
  | NaN => Ok NaN
  end.

End math.

(** ** Lists indexed the Python way *)

Module PyList.

(** The position an index denotes in a list of [len] elements: negative
    indices count from the end. *)
Definition position (len : nat) (i : Z) : option nat :=
  if ((0 <=? i) && (i <? Z.of_nat len))%Z then Some (Z.to_nat i)
  else if ((- Z.of_nat len <=? i) && (i <? 0))%Z
       then Some (Z.to_nat (Z.of_nat len + i))
       else None.

Fixpoint update (l : list string) (n : nat) (v : string) : list string :=
  match l, n with
  | [], _ => []
  | _ :: l', O => v :: l'
  | x :: l', S n' => x :: update l' n' v
  end.

(** [l[i]]. *)
Definition getitem (l : list string) (i : Z) : result string :=
  match position (List.length l) i with
  | Some n =>
      match nth_error l n with
      | Some x => Ok x
      | None => Raise (IndexError "list index out of range")
      end
  | None => Raise (IndexError "list index out of range")
  end.

(** [l[i] = v]. *)
Definition setitem (l : list string) (i : Z) (v : string) : result (list string) :=
  match position (List.length l) i with
  | Some n => Ok (update l n v)
  | None => Raise (IndexError "list assignment index out of range")
  end.

End PyList.

(** [s.split(sep)]: an empty separator is an error. *)
Definition split (s sep : string) : result (list string) :=
  match sep with
  | EmptyString => Raise (ValueError "empty separator")
  | _ => Ok (PyStr.split_from sep s 0 EmptyString)
  end.

(** [str(n)] for an [int]. *)
Definition str_int (n : Z) : string :=
  DecimalString.NilZero.string_of_int (Z.to_int n).

(** ** State, log and the monad of the program *)

Inductive level : Type := INFO | WARNING | ERROR.

(** The messages the program logs, by the place that logs them. *)
Inductive message : Type :=
| InvalidLatLon (latitude longitude : pyobj)           (* main.py:45 *)
| NotEnoughColumns (line_number : Z) (found : nat)     (* main.py:113 *)
| LineError (line_number : Z) (e : string)             (* main.py:127 *)
| UnexpectedError (e : exn)                            (* main.py:137 *)
| ProcessedSuccessfully                                (* main.py:148 *)
| MainError (e : exn).                                 (* main.py:150 *)

(** [draws] counts the calls of [random.random()] made so far, [outfile]
    holds the strings written to the output file, one per call of [write],
    and [log] the records logged, both oldest first. *)
Record state : Type := mkState {
  draws : nat;
  outfile : list string;
  log : list (level * message)
}.

Definition M (A : Type) : Type := state -> result A * state.

Definition ret {A} (a : A) : M A := fun st => (Ok a, st).

Definition raise {A} (e : exn) : M A := fun st => (Raise e, st).

Definition bind {A B} (m : M A) (k : A -> M B) : M B :=
  fun st =>
    match m st with
    | (Ok a, st') => k a st'
    | (Raise e, st') => (Raise e, st')
    end.

Definition lift {A} (r : result A) : M A := fun st => (r, st).

Declare Scope py_scope.
Delimit Scope py_scope with py.
Notation "x <- m ;; k" := (bind m (fun x => k))
  (at level 61, m at next level, right associativity) : py_scope.
Notation "' p <- m ;; k" := (bind m (fun x => match x with p => k end))
  (at level 61, p pattern, m at next level, right associativity) : py_scope.
Notation "m ;; k" := (bind m (fun _ => k))
  (at level 61, right associativity) : py_scope.

(** [try: m  except ValueError as e: handler e]. *)
Definition except_ValueError {A} (m : M A) (handler : string -> M A) : M A :=
  fun st =>
    match m st with
    | (Raise (ValueError msg), st') => handler msg st'
    | r => r
    end.

(** [try: m  except Exception as e: handler e]. *)
Definition except_Exception {A} (m : M A) (handler : exn -> M A) : M A :=
  fun st =>
    match m st with
    | (Raise e, st') => handler e st'
    | r => r
    end.

Definition logging (l : level) (m : message) : M unit :=
  fun st => (Ok tt, mkState (draws st) (outfile st) (log st ++ [(l, m)])).

Definition write (s : string) : M unit :=
  fun st => (Ok tt, mkState (draws st) (outfile st ++ [s]) (log st)).

(** [next(infile)]. *)
Definition next (infile : list string) : M (list string) :=
  match infile with
  | [] => raise StopIteration
  | _ :: rest => ret rest
  end.

Definition msg_not_numeric : string :=
  "Latitude and longitude must be numeric values.".
Definition msg_latitude : string := "Latitude must be between -90 and 90".
Definition msg_longitude : string := "Longitude must be between -180 and 180".
Definition msg_radius : string := "Radius must be greater than 0".

Local Open Scope py_scope.

Section Program.

(** The random generator: [rand k] is what the call number [k] of
    [random.random()] returns. *)
Variable rand : nat -> R.

(** [str(x)] for a [float]: its shortest decimal representation, which the
    real-number model of [float] leaves open. *)
Variable float_repr : pyfloat -> string.

Definition random : M pyfloat :=
  fun st => (Ok (Fin (rand (draws st))),
             mkState (S (draws st)) (outfile st) (log st)).

Definition str (v : pynum) : string :=
  match v with
  | PyInt n => str_int n
  | PyFloat f => float_repr f
  end.

(** main.py:57-63, the point before it is clipped: a random angle, a random
    distance within the radius and the displaced coordinates. *)
Definition displaced (latitude longitude : pyfloat) (radius : pynum)
  : M (pyfloat * pyfloat) :=
  u <- random ;;
  let angle := PyFloat.mul (PyFloat.mul (PyFloat.of_num (PyInt 2)) math.pi) u in
  v <- random ;;
  root <- lift (math.sqrt v) ;;
  let distance := PyFloat.mul (PyFloat.of_num radius) root in
  s <- lift (math.sin angle) ;;
  let new_latitude := PyFloat.add latitude (PyFloat.mul distance s) in
  c <- lift (math.cos angle) ;;
  let new_longitude := PyFloat.add longitude (PyFloat.mul distance c) in
  ret (new_latitude, new_longitude).

(** main.py:29-69. *)
Definition fuzz_coordinate (latitude longitude : pyobj) (radius : pynum)
  : M (pynum * pynum) :=
  (* main.py:41-46; [latitude] is already rebound to its float when the
     conversion of [longitude] fails *)
  '(lat, lon) <-
    match float latitude with
    | Raise (ValueError _) =>
        logging ERROR (InvalidLatLon latitude longitude) ;;
        raise (ValueError msg_not_numeric)
    | Raise e => raise e
    | Ok lat =>
        match float longitude with
        | Raise (ValueError _) =>
            logging ERROR (InvalidLatLon (PyNum (PyFloat lat)) longitude) ;;
            raise (ValueError msg_not_numeric)
        | Raise e => raise e
        | Ok lon => ret (lat, lon)
        end
    end ;;
  (* main.py:49-54 *)
  if negb (py_le (PyInt (-90)) (PyFloat lat) && py_le (PyFloat lat) (PyInt 90))
  then raise (ValueError msg_latitude)
  else if negb (py_le (PyInt (-180)) (PyFloat lon)
                && py_le (PyFloat lon) (PyInt 180))
  then raise (ValueError msg_longitude)
  else if py_le radius (PyInt 0)
  then raise (ValueError msg_radius)
  else
    '(new_latitude, new_longitude) <- displaced lat lon radius ;;
    (* main.py:66-67 *)
    let new_latitude :=
      py_max (PyInt (-90)) (py_min (PyInt 90) (PyFloat new_latitude)) in
    let new_longitude :=
      py_max (PyInt (-180)) (py_min (PyInt 180) (PyFloat new_longitude)) in
    ret (new_latitude, new_longitude).

(** main.py:106-128, the body of the loop for one line. *)
Definition process_line (radius : pynum) (lat_col lon_col : Z)
    (delimiter : string) (line_number : Z) (line : string) : M unit :=
  let line := PyStr.strip line in
  if line =? "" then ret tt
  else
    except_ValueError
      (parts <- lift (split line delimiter) ;;
       if (Z.of_nat (List.length parts) <=? Z.max lat_col lon_col)%Z then
         logging WARNING (NotEnoughColumns line_number (List.length parts)) ;;
         write (line ++ PyStr.newline)
       else
         latitude <- lift (PyList.getitem parts lat_col) ;;
         longitude <- lift (PyList.getitem parts lon_col) ;;
         '(new_latitude, new_longitude) <-
           fuzz_coordinate (PyStr latitude) (PyStr longitude) radius ;;
         parts <- lift (PyList.setitem parts lat_col (str new_latitude)) ;;
         parts <- lift (PyList.setitem parts lon_col (str new_longitude)) ;;
         write (PyStr.join delimiter parts ++ PyStr.newline))
      (fun e =>
         logging ERROR (LineError line_number e) ;;
         write (line ++ PyStr.newline)).

(** main.py:105, [for line_number, line in enumerate(infile, start)]. *)
Fixpoint for_lines (radius : pynum) (lat_col lon_col : Z) (delimiter : string)
    (line_number : Z) (infile : list string) : M unit :=
  match infile with
  | [] => ret tt
  | line :: rest =>
      process_line radius lat_col lon_col delimiter line_number line ;;
      for_lines radius lat_col lon_col delimiter (line_number + 1) rest
  end.

(** main.py:71-138 from the opened files on: [infile] is the sequence of
    lines of the input file. Every exception that leaves the loop is logged
    and raised again. *)
Definition process_file (infile : list string) (radius : pynum)
    (lat_col lon_col : Z) (delimiter : string) (header : bool) : M unit :=
  except_Exception
    (infile <- (if header then next infile else ret infile) ;;
     for_lines radius lat_col lon_col delimiter 1 infile)
    (fun e => logging ERROR (UnexpectedError e) ;; raise e).

(** main.py:141-151 after the arguments are parsed: the exit status of the
    process, 1 through [sys.exit(1)] and 0 when [main] returns. *)
Definition main (infile : list string) (radius : pynum)
    (lat_col lon_col : Z) (delimiter : string) (header : bool) : M Z :=
  except_Exception
    (process_file infile radius lat_col lon_col delimiter header ;;
     logging INFO ProcessedSuccessfully ;;
     ret 0%Z)
    (fun e => logging ERROR (MainError e) ;; ret 1%Z).

End Program.

(** The state a run starts from. *)
Definition start : state := mkState 0 [] [].

(** ** Vocabulary of the statements *)

(** The number [v] is finite and lies in [[lo, hi]]. *)
Definition within (v : pynum) (lo hi : R) : Prop :=
  exists x, PyFloat.of_num v = Fin x /\ (lo <= x <= hi)%R.

(** The state after [n] more calls of [random.random()] and nothing else. *)
Definition after_draws (n : nat) (st : state) : state :=
  mkState (draws st + n) (outfile st) (log st).

(** The state after one more record in the log and nothing else. *)
Definition after_log (l : level) (m : message) (st : state) : state :=
  mkState (draws st) (outfile st) (log st ++ [(l, m)]).

(** The test of main.py:106-107: nothing is left of the line once it is
    stripped. *)
Definition blank (line : string) : bool := PyStr.strip line =? "".

Definition count_nonblank (infile : list string) : nat :=
  List.length (filter (fun line => negb (blank line)) infile).

(** The lines the loop of [process_file] sees. *)
Definition after_header (header : bool) (infile : list string) : list string :=
  if header then tl infile else infile.


(** Concrete material for the examples: a generator that always returns 0,
    a stand-in for the representation of floats, the default radius of the
    command line and a tab. *)
Definition zero_rand : nat -> R := fun _ => 0%R.
Definition opaque_repr : pyfloat -> string := fun _ => "<float>".
Definition default_radius : pynum := PyFloat (Fin (1 / 100)).
Definition tab : string := String (ascii_of_nat 9) EmptyString.

(** A tab-separated record of four fields whose first field is empty. *)
Definition tsv_record : string :=
  tab ++ "40.0" ++ tab ++ "-70.0" ++ tab ++ "10.0".



(** What is written for a line that is passed through. *)
Definition stripped_line (line : string) : string :=
  PyStr.strip line ++ PyStr.newline.

(** [s[n:]]. *)
Fixpoint drop (n : nat) (s : string) : string :=
  match n, s with
  | O, _ => s
  | S k, String _ s' => drop k s'
  | S _, EmptyString => EmptyString
  end.

(** * Properties *)

(** ** Numbers and clipping *)

Lemma clip_within (lo hi : Z) (x : pyfloat) :
  (lo < hi)%Z ->
  within (py_max (PyInt lo) (py_min (PyInt hi) (PyFloat x))) (IZR lo) (IZR hi).
Proof.
  intros Hlt. apply IZR_lt in Hlt.
  unfold within, py_max, py_min, py_lt.
  destruct x as [r | [|] | ]; simpl.
  - destruct (Rlt_dec r (IZR hi)) as [Hhi | Hhi]; simpl.
    + destruct (Rlt_dec (IZR lo) r) as [Hlo | Hlo]; simpl.
      * exists r. split; [reflexivity | lra].
      * exists (IZR lo). split; [reflexivity | lra].
    + destruct (Rlt_dec (IZR lo) (IZR hi)) as [_ | Hc]; [| lra]. simpl.
      exists (IZR hi). split; [reflexivity | lra].
  - exists (IZR lo). split; [reflexivity | lra].
  - destruct (Rlt_dec (IZR lo) (IZR hi)) as [_ | Hc]; [| lra]. simpl.
    exists (IZR hi). split; [reflexivity | lra].
  - destruct (Rlt_dec (IZR lo) (IZR hi)) as [_ | Hc]; [| lra]. simpl.
    exists (IZR hi). split; [reflexivity | lra].
Qed.

Lemma positive_not_le_zero (radius : pynum) :
  py_lt (PyInt 0) radius = true -> py_le radius (PyInt 0) = false.
Proof.
  unfold py_lt, py_le.
  destruct (PyFloat.of_num radius) as [r | [|] | ]; simpl; try discriminate.
  - destruct (Rlt_dec 0 r) as [Hr | Hr]; [| discriminate]. intros _.
    destruct (Rle_dec r 0) as [Hc | Hc]; [lra | reflexivity].
  - reflexivity.
Qed.

Lemma range_check_passes (x : R) (lo hi : Z) :
  (IZR lo <= x <= IZR hi)%R ->
  negb (py_le (PyInt lo) (PyFloat (Fin x)) && py_le (PyFloat (Fin x)) (PyInt hi))
  = false.
Proof.
  intros [H1 H2]. unfold py_le. simpl.
  destruct (Rle_dec (IZR lo) x) as [_ | Hc]; [| lra].
  destruct (Rle_dec x (IZR hi)) as [_ | Hc]; [| lra]. reflexivity.
Qed.

Lemma range_check_fails_above (x : R) (lo hi : Z) :
  (IZR hi < x)%R ->
  negb (py_le (PyInt lo) (PyFloat (Fin x)) && py_le (PyFloat (Fin x)) (PyInt hi))
  = true.
Proof.
  intros H. unfold py_le. simpl.
  destruct (Rle_dec x (IZR hi)) as [Hc | _]; [lra |].
  now rewrite andb_false_r.
Qed.


Lemma float_raises_ValueError (o : pyobj) (e : exn) :
  float o = Raise e -> exists msg, e = ValueError msg.
Proof.
  destruct o as [s | v]; simpl; [| discriminate].
  destruct (FloatLit.parse s); [discriminate |].
  intros [= <-]. eexists. reflexivity.
Qed.

(** ** Lists *)


Lemma update_length (l : list string) (n : nat) (v : string) :
  List.length (PyList.update l n v) = List.length l.
Proof.
  revert n. induction l as [| x l IH]; intros [| n]; simpl; auto.
Qed.





(** ** The fuzzer *)

Section Fuzzer.

Variable rand : nat -> R.

(** What [random.random()] promises: a value in [[0, 1)]. *)
Hypothesis rand_unit : forall k, (0 <= rand k < 1)%R.

Local Open Scope R_scope.

(** With draws in [[0, 1)] the displacement never fails; it draws twice,
    first for the angle and then for the distance. *)
Lemma displaced_returns (latitude longitude : pyfloat) (radius : pynum)
    (st : state) :
  let angle := 2 * PI * rand (draws st) in
  let distance :=
    PyFloat.mul (PyFloat.of_num radius) (Fin (sqrt (rand (S (draws st))))) in
  displaced rand latitude longitude radius st =
  (Ok (PyFloat.add latitude (PyFloat.mul distance (Fin (sin angle))),
       PyFloat.add longitude (PyFloat.mul distance (Fin (cos angle)))),
   after_draws 2 st).
Proof.
  unfold displaced, bind, random, lift, ret, after_draws. simpl.
  destruct (Rlt_dec (rand (S (draws st))) 0) as [Hc | _].
  - destruct (rand_unit (S (draws st))). lra.
  - simpl. repeat f_equal. lia.
Qed.

(** On valid arguments [fuzz_coordinate] is the clipping of the displaced
    point. *)
Lemma fuzz_coordinate_valid (latitude longitude : pyobj) (radius : pynum)
    (lat lon : R) (st : state) :
  float latitude = Ok (Fin lat) -> float longitude = Ok (Fin lon) ->
  -90 <= lat <= 90 -> -180 <= lon <= 180 ->
  py_lt (PyInt 0) radius = true ->
  exists new_latitude new_longitude,
    displaced rand (Fin lat) (Fin lon) radius st
    = (Ok (new_latitude, new_longitude), after_draws 2 st) /\
    fuzz_coordinate rand latitude longitude radius st
    = (Ok (py_max (PyInt (-90)) (py_min (PyInt 90) (PyFloat new_latitude)),
           py_max (PyInt (-180)) (py_min (PyInt 180) (PyFloat new_longitude))),
       after_draws 2 st).
Proof.
  intros Hlat Hlon Rlat Rlon Hrad.
  unfold fuzz_coordinate. rewrite Hlat, Hlon.
  unfold bind at 1. unfold ret at 1.
  rewrite (range_check_passes lat (-90) 90) by exact Rlat.
  rewrite (range_check_passes lon (-180) 180) by exact Rlon.
  rewrite (positive_not_le_zero radius Hrad).
  unfold bind. rewrite displaced_returns. unfold ret.
  eexists; eexists. split; reflexivity.
Qed.



End Fuzzer.

(** A generator that always returns 0 keeps the promise of
    [random.random()]. *)
Lemma zero_rand_unit : forall k, (0 <= zero_rand k < 1)%R.
Proof. intros k. unfold zero_rand. lra. Qed.

Lemma float_40 : float (PyStr "40.0") = Ok (Fin (Q2R (400 # 10))).
Proof. reflexivity. Qed.

Lemma float_minus_70 : float (PyStr "-70.0") = Ok (Fin (Q2R (- 700 # 10))).
Proof. reflexivity. Qed.

Lemma default_radius_positive : py_lt (PyInt 0) default_radius = true.
Proof.
  unfold py_lt, default_radius. simpl.
  destruct (Rlt_dec 0 (1 / 100)) as [_ | Hc]; [reflexivity | lra].
Qed.



Section Rejections.

Variable rand : nat -> R.

Local Open Scope R_scope.

(** C3. [fuzz_coordinate(91, 0, 0.01)] and [fuzz_coordinate(0, 181, 0.01)]
    raise the range errors of the latitude and of the longitude,
    [fuzz_coordinate("abc", 0, 0.01)] raises the error for values that are not
    numeric and [fuzz_coordinate(0, 0, 0)] the error for a radius that is not
    positive; each call ends in the exception, so none returns a pair. *)
Theorem fuzz_coordinate_rejects (st : state) :
  fuzz_coordinate rand (PyNum (PyInt 91)) (PyNum (PyInt 0)) default_radius st
  = (Raise (ValueError msg_latitude), st) /\
  fuzz_coordinate rand (PyNum (PyInt 0)) (PyNum (PyInt 181)) default_radius st
  = (Raise (ValueError msg_longitude), st) /\
  fuzz_coordinate rand (PyStr "abc") (PyNum (PyInt 0)) default_radius st
  = (Raise (ValueError msg_not_numeric),
     after_log ERROR (InvalidLatLon (PyStr "abc") (PyNum (PyInt 0))) st) /\
  fuzz_coordinate rand (PyNum (PyInt 0)) (PyNum (PyInt 0)) (PyInt 0) st
  = (Raise (ValueError msg_radius), st).
Proof.
  unfold fuzz_coordinate. split; [| split; [| split]].
  - simpl float. unfold bind at 1. unfold ret at 1.
    rewrite range_check_fails_above by lra. reflexivity.
  - simpl float. unfold bind at 1. unfold ret at 1.
    rewrite (range_check_passes 0 (-90) 90) by lra.
    rewrite range_check_fails_above by lra. reflexivity.
  - reflexivity.
  - simpl float. unfold bind at 1. unfold ret at 1.
    rewrite (range_check_passes 0 (-90) 90) by lra.
    rewrite (range_check_passes 0 (-180) 180) by lra.
    unfold py_le. simpl.
    destruct (Rle_dec 0 0) as [_ | Hc]; [reflexivity | lra].
Qed.


End Rejections.



(** ** The pass over the file *)

Section Pipeline.

Variable rand : nat -> R.
Variable float_repr : pyfloat -> string.

(** A computation that has just raised a [ValueError] without writing. *)
Ltac raised_ValueError :=
  cbn; intros [= <- <-]; split; [reflexivity |]; intros ? [= <-]; eauto.

(** The displacement writes nothing and can only fail with a [ValueError]. *)
Lemma displaced_effect lat lon radius st r st' :
  displaced rand lat lon radius st = (r, st') ->
  outfile st' = outfile st /\
  forall e, r = Raise e -> exists msg, e = ValueError msg.
Proof.
  unfold displaced, bind, random, lift, ret. simpl.
  destruct (Rlt_dec (rand (S (draws st))) 0); simpl; intros [= <- <-]; simpl.
  - split; [reflexivity |]. intros e [= <-]. eauto.
  - split; [reflexivity | discriminate].
Qed.

(** So does [fuzz_coordinate]: every failure of it is a [ValueError]. *)
Lemma fuzz_coordinate_effect latitude longitude radius st r st' :
  fuzz_coordinate rand latitude longitude radius st = (r, st') ->
  outfile st' = outfile st /\
  forall e, r = Raise e -> exists msg, e = ValueError msg.
Proof.
  unfold fuzz_coordinate.
  destruct (float latitude) as [lat | e1] eqn:E1.
  2:{ destruct (float_raises_ValueError _ _ E1) as [m ->]. raised_ValueError. }
  destruct (float longitude) as [lon | e2] eqn:E2.
  2:{ destruct (float_raises_ValueError _ _ E2) as [m ->]. raised_ValueError. }
  unfold bind at 1. unfold ret at 1.
  destruct (negb (py_le (PyInt (-90)) (PyFloat lat) && _)).
  { raised_ValueError. }
  destruct (negb (py_le (PyInt (-180)) (PyFloat lon) && _)).
  { raised_ValueError. }
  destruct (py_le radius (PyInt 0)).
  { raised_ValueError. }
  unfold bind.
  destruct (displaced rand lat lon radius st) as [[[a b] | e] st1] eqn:E;
    destruct (displaced_effect _ _ _ _ _ _ E) as [Ho Hr].
  - unfold ret. intros [= <- <-]. split; [exact Ho | discriminate].
  - intros [= <- <-]. split; [exact Ho |].
    intros e0 [= <-]. apply Hr. reflexivity.
Qed.

(** A line that is blank once stripped leaves the state as it is. *)
Lemma process_line_blank radius lat_col lon_col delimiter n line st :
  blank line = true ->
  process_line rand float_repr radius lat_col lon_col delimiter n line st
  = (Ok tt, st).
Proof.
  unfold blank, process_line. intros ->. reflexivity.
Qed.



(** The header flag only removes the first line: the run is the run on the
    remaining lines without the flag, line numbers included. *)
Lemma process_file_header first rest radius lat_col lon_col delimiter st :
  process_file rand float_repr (first :: rest) radius lat_col lon_col
    delimiter true st
  = process_file rand float_repr rest radius lat_col lon_col delimiter false st.
Proof. reflexivity. Qed.



(** C10. With the header flag and an input without lines, [next] raises
    [StopIteration]; [process_file] logs it and raises it again, nothing is
    written, and [main] ends the process with status 1. *)
Theorem header_of_empty_input_is_fatal radius lat_col lon_col delimiter st :
  process_file rand float_repr [] radius lat_col lon_col delimiter true st
  = (Raise StopIteration, after_log ERROR (UnexpectedError StopIteration) st) /\
  main rand float_repr [] radius lat_col lon_col delimiter true st
  = (Ok 1%Z,
     after_log ERROR (MainError StopIteration)
       (after_log ERROR (UnexpectedError StopIteration) st)).
Proof.
  split; reflexivity.
Qed.

(** A line with too few fields: the warning carries the number of fields
    of the stripped line, the stripped line is written, and the pass goes
    on. *)
Lemma process_line_short radius lat_col lon_col delimiter n line st parts :
  blank line = false ->
  split (PyStr.strip line) delimiter = Ok parts ->
  (Z.of_nat (List.length parts) <=? Z.max lat_col lon_col)%Z = true ->
  process_line rand float_repr radius lat_col lon_col delimiter n line st
  = (Ok tt,
     mkState (draws st)
       (outfile st ++ [(PyStr.strip line ++ PyStr.newline)%string])%list
       (log st ++ [(WARNING, NotEnoughColumns n (List.length parts))])%list).
Proof.
  intros Hb Hsplit Hlen. unfold blank in Hb.
  unfold process_line. rewrite Hb, Hsplit.
  unfold except_ValueError, bind at 1. unfold lift at 1. rewrite Hlen.
  reflexivity.
Qed.

(** A line on which the fuzzer fails: the error is logged with the message
    of the exception, the stripped line is written, and the pass goes on. *)
Lemma process_line_failed radius lat_col lon_col delimiter n line st
    parts slat slon msg st1 :
  blank line = false ->
  split (PyStr.strip line) delimiter = Ok parts ->
  (Z.of_nat (List.length parts) <=? Z.max lat_col lon_col)%Z = false ->
  PyList.getitem parts lat_col = Ok slat ->
  PyList.getitem parts lon_col = Ok slon ->
  fuzz_coordinate rand (PyStr slat) (PyStr slon) radius st
  = (Raise (ValueError msg), st1) ->
  process_line rand float_repr radius lat_col lon_col delimiter n line st
  = (Ok tt,
     mkState (draws st1)
       (outfile st ++ [(PyStr.strip line ++ PyStr.newline)%string])%list
       (log st1 ++ [(ERROR, LineError n msg)])%list).
Proof.
  intros Hb Hsplit Hlen Hlat Hlon E. unfold blank in Hb.
  destruct (fuzz_coordinate_effect _ _ _ _ _ _ E) as [Ho _].
  unfold process_line. rewrite Hb, Hsplit.
  unfold except_ValueError, bind at 1. unfold lift at 1. rewrite Hlen.
  rewrite Hlat, Hlon. unfold lift at 1 2. unfold bind at 1 2.
  unfold bind at 1. rewrite E. cbn. rewrite Ho. reflexivity.
Qed.

(** The line on which the fuzzer succeeds: the fields of the stripped line
    are rejoined with the delimiter after the two fields at the positions of
    the latitude and of the longitude were assigned, in that order, the text
    of the clipped point. With [update_length] and [update_other] this says
    that the number of fields and every other field of the stripped line are
    kept. *)
Lemma process_line_fuzzed radius lat_col lon_col delimiter n line st
    parts i j slat slon lat lon :
  (forall k, (0 <= rand k < 1)%R) ->
  blank line = false ->
  split (PyStr.strip line) delimiter = Ok parts ->
  (Z.of_nat (List.length parts) <=? Z.max lat_col lon_col)%Z = false ->
  PyList.position (List.length parts) lat_col = Some i ->
  PyList.position (List.length parts) lon_col = Some j ->
  nth_error parts i = Some slat -> nth_error parts j = Some slon ->
  float (PyStr slat) = Ok (Fin lat) -> float (PyStr slon) = Ok (Fin lon) ->
  (-90 <= lat <= 90)%R -> (-180 <= lon <= 180)%R ->
  py_lt (PyInt 0) radius = true ->
  exists new_latitude new_longitude,
    within new_latitude (-90) 90 /\ within new_longitude (-180) 180 /\
    process_line rand float_repr radius lat_col lon_col delimiter n line st
    = (Ok tt,
       mkState (draws st + 2)
         (outfile st ++
          [(PyStr.join delimiter
              (PyList.update
                 (PyList.update parts i (str float_repr new_latitude))
                 j (str float_repr new_longitude))
            ++ PyStr.newline)%string])%list
         (log st)).
Proof.
  intros Hrand Hb Hsplit Hlen Hi Hj Hslat Hslon Hlat Hlon Rlat Rlon Hrad.
  destruct (fuzz_coordinate_valid rand Hrand (PyStr slat) (PyStr slon)
              radius lat lon st Hlat Hlon Rlat Rlon Hrad)
    as (a & b & _ & E).
  eexists; eexists.
  split; [apply (clip_within (-90) 90 a); lia |].
  split; [apply (clip_within (-180) 180 b); lia |].
  unfold blank in Hb. unfold process_line. rewrite Hb, Hsplit.
  unfold except_ValueError, bind at 1. unfold lift at 1. rewrite Hlen.
  unfold PyList.getitem, PyList.setitem. rewrite Hi, Hj, Hslat, Hslon.
  unfold lift at 1 2. unfold bind at 1 2. unfold bind at 1. rewrite E.
  unfold after_draws. cbn [draws outfile log].
  unfold lift, bind. rewrite update_length, Hj. reflexivity.
Qed.

End Pipeline.

(** ** The pass on concrete files *)

Lemma float_10 : float (PyStr "10.0") = Ok (Fin (Q2R (100 # 10))).
Proof. reflexivity. Qed.

(** C5 at its failing input. The line [" 40.0\n"] has one field where two
    are needed; the warning is logged and the pass goes on, but what is
    written is the stripped line ["40.0\n"], not the line as it was read.
    Likewise the tab-separated line ["40.0\t\n"] loses its tab. The line
    ["40.0\n"] of the specification, which has no surrounding whitespace,
    is written as it is. *)
Theorem short_line_is_written_stripped (rand : nat -> R)
    (float_repr : pyfloat -> string) (radius : pynum) :
  process_file rand float_repr [" 40.0" ++ PyStr.newline] radius 0 1 ","
    false start
  = (Ok tt,
     mkState 0 ["40.0" ++ PyStr.newline] [(WARNING, NotEnoughColumns 1 1)]) /\
  "40.0" ++ PyStr.newline <> " 40.0" ++ PyStr.newline /\
  process_file rand float_repr ["40.0" ++ tab ++ PyStr.newline] radius 0 2 tab
    false start
  = (Ok tt,
     mkState 0 ["40.0" ++ PyStr.newline] [(WARNING, NotEnoughColumns 1 1)]) /\
  "40.0" ++ PyStr.newline <> "40.0" ++ tab ++ PyStr.newline /\
  process_file rand float_repr ["40.0" ++ PyStr.newline] radius 0 1 ","
    false start
  = (Ok tt,
     mkState 0 ["40.0" ++ PyStr.newline] [(WARNING, NotEnoughColumns 1 1)]).
Proof.
  split; [reflexivity |]. split; [discriminate |].
  split; [reflexivity |]. split; [discriminate | reflexivity].
Qed.

(** C6 at its failing input. On the line [" abc,def\n"] the fuzzer fails
    because ["abc"] is not numeric; both errors are logged and the pass goes
    on without raising, but what is written is the stripped line
    ["abc,def\n"], not the line as it was read. Likewise the tab-separated
    line ["abc\tdef\t\n"] loses its last, empty field. *)
Theorem failed_line_is_written_stripped (rand : nat -> R)
    (float_repr : pyfloat -> string) (radius : pynum) :
  process_file rand float_repr [" abc,def" ++ PyStr.newline] radius 0 1 ","
    false start
  = (Ok tt,
     mkState 0 ["abc,def" ++ PyStr.newline]
       [(ERROR, InvalidLatLon (PyStr "abc") (PyStr "def"));
        (ERROR, LineError 1 msg_not_numeric)]) /\
  "abc,def" ++ PyStr.newline <> " abc,def" ++ PyStr.newline /\
  process_file rand float_repr ["abc" ++ tab ++ "def" ++ tab ++ PyStr.newline]
    radius 0 1 tab false start
  = (Ok tt,
     mkState 0 ["abc" ++ tab ++ "def" ++ PyStr.newline]
       [(ERROR, InvalidLatLon (PyStr "abc") (PyStr "def"));
        (ERROR, LineError 1 msg_not_numeric)]) /\
  "abc" ++ tab ++ "def" ++ PyStr.newline
  <> "abc" ++ tab ++ "def" ++ tab ++ PyStr.newline.
Proof.
  split; [reflexivity |]. split; [discriminate |].
  split; [reflexivity | discriminate].
Qed.

(** C9 at its failing input. The record [tsv_record] has the four
    tab-separated fields [""], ["40.0"], ["-70.0"] and ["10.0"]; with the
    latitude in column 1 and the longitude in column 2 the fuzzer succeeds,
    but on the fields of the stripped line: three fields are written, the
    latitude ["40.0"] is written as it was, and the texts of the fuzzed
    values take the places of ["-70.0"] and ["10.0"]. *)
Theorem leading_delimiter_shifts_the_columns (float_repr : pyfloat -> string) :
  PyStr.split_from tab tsv_record 0 "" = [""; "40.0"; "-70.0"; "10.0"] /\
  exists new_latitude new_longitude,
    process_file zero_rand float_repr [tsv_record ++ PyStr.newline]
      default_radius 1 2 tab false start
    = (Ok tt,
       mkState 2
         [PyStr.join tab
            ["40.0"; str float_repr new_latitude; str float_repr new_longitude]
          ++ PyStr.newline]
         []).
Proof.
  split; [reflexivity |].
  destruct (process_line_fuzzed zero_rand float_repr default_radius 1 2 tab 1
              (tsv_record ++ PyStr.newline) start
              ["40.0"; "-70.0"; "10.0"] 1 2 "-70.0" "10.0"
              (Q2R (- 700 # 10)) (Q2R (100 # 10)))
    as (a & b & _ & _ & E);
    try reflexivity.
  - exact zero_rand_unit.
  - unfold Q2R. simpl. lra.
  - unfold Q2R. simpl. lra.
  - exact default_radius_positive.
  - exists a, b.
    unfold process_file, except_Exception, bind, ret. cbn [for_lines].
    unfold bind. rewrite E. reflexivity.
Qed.



(** Why the column indices are taken not negative above: a negative index
    below the first field raises [IndexError], which the handler of the loop
    does not catch, so the pass ends with it. *)
Lemma negative_column_ends_the_pass (rand : nat -> R)
    (float_repr : pyfloat -> string) (radius : pynum) :
  process_file rand float_repr ["a,b" ++ PyStr.newline] radius (-3) 0 ","
    false start
  = (Raise (IndexError "list index out of range"),
     after_log ERROR (UnexpectedError (IndexError "list index out of range"))
       start).
Proof. reflexivity. Qed.

(** * More of the code *)

(** ** The fuzzer at its edges *)


Lemma clip_special (lo hi : Z) (f : pyfloat) :
  (lo < hi)%Z -> (forall x, f <> Fin x) ->
  py_max (PyInt lo) (py_min (PyInt hi) (PyFloat f)) = PyInt lo \/
  py_max (PyInt lo) (py_min (PyInt hi) (PyFloat f)) = PyInt hi.
Proof.
  intros Hlt Hf. apply IZR_lt in Hlt.
  unfold py_max, py_min, py_lt.
  destruct f as [x | [|] |]; simpl.
  - now destruct (Hf x).
  - left. reflexivity.
  - right. destruct (Rlt_dec (IZR lo) (IZR hi)) as [_ | Hc]; [reflexivity | lra].
  - right. destruct (Rlt_dec (IZR lo) (IZR hi)) as [_ | Hc]; [reflexivity | lra].
Qed.

Lemma clip_nan (lo hi : Z) :
  (lo < hi)%Z -> py_max (PyInt lo) (py_min (PyInt hi) (PyFloat NaN)) = PyInt hi.
Proof.
  intros Hlt. apply IZR_lt in Hlt. unfold py_max, py_min, py_lt. simpl.
  destruct (Rlt_dec (IZR lo) (IZR hi)) as [_ | Hc]; [reflexivity | lra].
Qed.


Section FuzzerEdges.

Variable rand : nat -> R.
Hypothesis rand_unit : forall k, (0 <= rand k < 1)%R.

Local Open Scope R_scope.





(** X3. A radius that is NaN passes the test [radius <= 0]: on valid
    coordinates the call succeeds and returns the pair of the upper bounds,
    the integers 90 and 180, whatever the coordinates and the draws are. *)
Theorem nan_radius_is_not_rejected (latitude longitude : pyobj)
    (radius : pynum) (lat lon : R) (st : state) :
  float latitude = Ok (Fin lat) -> float longitude = Ok (Fin lon) ->
  -90 <= lat <= 90 -> -180 <= lon <= 180 ->
  PyFloat.of_num radius = NaN ->
  fuzz_coordinate rand latitude longitude radius st
  = (Ok (PyInt 90, PyInt 180), after_draws 2 st).
Proof.
  intros Hlat Hlon Rlat Rlon Hr.
  unfold fuzz_coordinate. rewrite Hlat, Hlon.
  unfold bind at 1. unfold ret at 1.
  rewrite (range_check_passes lat (-90) 90) by exact Rlat.
  rewrite (range_check_passes lon (-180) 180) by exact Rlon.
  unfold py_le at 1. rewrite Hr. cbn [PyFloat.le].
  unfold bind. rewrite displaced_returns by exact rand_unit. rewrite Hr.
  cbn [PyFloat.mul PyFloat.add]. unfold ret.
  rewrite (clip_nan (-90) 90), (clip_nan (-180) 180) by lia. reflexivity.
Qed.

(** X4. With an infinite radius every fuzzed coordinate is one of its two
    bounds: the latitude returned is the integer -90 or 90 and the longitude
    the integer -180 or 180. *)
Theorem infinite_radius_pins_to_the_bounds (latitude longitude : pyobj)
    (radius : pynum) (lat lon : R) (st : state) :
  float latitude = Ok (Fin lat) -> float longitude = Ok (Fin lon) ->
  -90 <= lat <= 90 -> -180 <= lon <= 180 ->
  PyFloat.of_num radius = Inf false ->
  exists new_latitude new_longitude,
    fuzz_coordinate rand latitude longitude radius st
    = (Ok (new_latitude, new_longitude), after_draws 2 st) /\
    (new_latitude = PyInt (-90) \/ new_latitude = PyInt 90) /\
    (new_longitude = PyInt (-180) \/ new_longitude = PyInt 180).
Proof.
  intros Hlat Hlon Rlat Rlon Hr.
  assert (Hpos : py_lt (PyInt 0) radius = true).
  { unfold py_lt. rewrite Hr. reflexivity. }
  destruct (fuzz_coordinate_valid rand rand_unit latitude longitude radius
              lat lon st Hlat Hlon Rlat Rlon Hpos) as (a & b & Hd & E).
  rewrite displaced_returns in Hd by exact rand_unit. rewrite Hr in Hd.
  injection Hd as <- <-.
  eexists; eexists. split; [exact E |].
  assert (special : forall x s (f := PyFloat.add (Fin x)
            (PyFloat.mul (PyFloat.mul (Inf false)
               (Fin (sqrt (rand (S (draws st)))))) (Fin s))),
            forall y, f <> Fin y).
  { intros x s f y. subst f. cbn [PyFloat.mul]. unfold PyFloat.mul_inf.
    destruct (Req_dec_T (sqrt (rand (S (draws st)))) 0); [discriminate |].
    cbn [PyFloat.mul]. unfold PyFloat.mul_inf.
    destruct (Req_dec_T s 0); discriminate. }
  split; [apply clip_special | apply clip_special]; try lia; apply special.
Qed.


End FuzzerEdges.

(** ** Diagnostics and draws *)


Section PipelineMore.

Variable rand : nat -> R.
Variable float_repr : pyfloat -> string.

Section WithDraws.

Hypothesis rand_unit : forall k, (0 <= rand k < 1)%R.





End WithDraws.

End PipelineMore.

(** ** Splitting and joining *)

Lemma prefix_append (p s : string) :
  prefix p s = true -> exists rest, s = p ++ rest.
Proof.
  revert s. induction p as [| a p IH]; intros s H.
  - exists s. reflexivity.
  - destruct s as [| b s]; simpl in H; [discriminate |].
    destruct (ascii_dec a b) as [-> | _]; [| discriminate].
    destruct (IH s H) as [rest ->]. exists rest. reflexivity.
Qed.

Lemma drop_append (p rest : string) : drop (String.length p) (p ++ rest) = rest.
Proof. induction p as [| a p IH]; simpl; auto. Qed.

Lemma append_assoc (a b c : string) : (a ++ b) ++ c = a ++ (b ++ c).
Proof. induction a as [| x a IH]; simpl; [reflexivity | now rewrite IH]. Qed.

Lemma append_empty (a : string) : a ++ "" = a.
Proof. induction a as [| x a IH]; simpl; [reflexivity | now rewrite IH]. Qed.

Lemma split_from_nonempty (sep s : string) (skip : nat) (cur : string) :
  PyStr.split_from sep s skip cur <> [].
Proof.
  revert skip cur. induction s as [| c s IH]; intros skip cur;
    cbn [PyStr.split_from].
  - discriminate.
  - destruct skip; [| apply IH].
    destruct (prefix sep (String c s)); [discriminate | apply IH].
Qed.

Lemma join_cons (sep x : string) (xs : list string) :
  xs <> [] -> PyStr.join sep (x :: xs) = x ++ sep ++ PyStr.join sep xs.
Proof. destruct xs; [contradiction | reflexivity]. Qed.

Lemma join_split_from (sep : string) :
  sep <> "" ->
  forall s skip cur,
    (skip <= String.length s)%nat ->
    PyStr.join sep (PyStr.split_from sep s skip cur) = cur ++ drop skip s.
Proof.
  intros Hsep. induction s as [| c s IH]; intros skip cur Hskip.
  - simpl in Hskip. replace skip with O by lia. cbn.
    now rewrite append_empty.
  - cbn [PyStr.split_from]. destruct skip as [| k].
    + destruct (prefix sep (String c s)) eqn:Hp.
      * destruct (prefix_append _ _ Hp) as [rest Hrest].
        destruct sep as [| a sep']; [contradiction |].
        simpl in Hrest. injection Hrest as <- ->.
        rewrite join_cons by apply split_from_nonempty.
        assert (Hlen : forall x t,
                  (String.length (String x t) - 1)%nat = String.length t)
          by (intros; simpl; lia).
        rewrite Hlen, IH.
        -- rewrite drop_append. reflexivity.
        -- clear. induction sep'; simpl; lia.
      * rewrite IH by lia. cbn [drop]. rewrite append_assoc. reflexivity.
    + rewrite IH by (simpl in Hskip; lia). reflexivity.
Qed.

Lemma split_joins_back (s sep : string) (parts : list string) :
  split s sep = Ok parts -> PyStr.join sep parts = s.
Proof.
  unfold split. destruct sep as [| a sep']; [discriminate |].
  intros [= <-]. rewrite join_split_from; [reflexivity | discriminate | lia].
Qed.

(** X8. [split] with an empty separator raises [ValueError]; with any other
    separator it returns at least one field, and joining the fields with the
    separator gives the text back. *)
Theorem join_of_split_is_the_line (s sep : string) :
  (sep = "" -> split s sep = Raise (ValueError "empty separator")) /\
  (sep <> "" ->
   exists first others,
     split s sep = Ok (first :: others) /\
     PyStr.join sep (first :: others) = s).
Proof.
  split.
  - intros ->. reflexivity.
  - intros Hsep. destruct sep as [| a sep']; [contradiction |].
    destruct (PyStr.split_from (String a sep') s 0 "") as [| first others] eqn:E.
    + now destruct (split_from_nonempty (String a sep') s 0 "").
    + exists first, others. split; [unfold split; now rewrite E |].
      apply split_joins_back. unfold split. now rewrite E.
Qed.



Section PipelineEdges.

Variable rand : nat -> R.
Variable float_repr : pyfloat -> string.

(** X9. Blank lines are counted in the line numbers and change nothing else:
    the loop over blank lines followed by [rest], from number [n], is the
    loop over [rest] from [n] plus the number of blank lines. *)
Theorem blank_lines_only_advance_the_line_number radius lat_col lon_col
    delimiter (blanks rest : list string) (n : Z) (st : state) :
  Forall (fun line => blank line = true) blanks ->
  for_lines rand float_repr radius lat_col lon_col delimiter n
    (blanks ++ rest) st
  = for_lines rand float_repr radius lat_col lon_col delimiter
      (n + Z.of_nat (List.length blanks)) rest st.
Proof.
  intros H. revert n. induction H as [| line blanks Hb _ IH]; intros n.
  - cbn. now rewrite Z.add_0_r.
  - cbn [app for_lines]. unfold bind.
    rewrite process_line_blank by exact Hb. rewrite IH.
    f_equal. cbn [List.length]. lia.
Qed.

Lemma for_lines_empty_delimiter radius lat_col lon_col :
  forall infile n st,
  exists records,
    for_lines rand float_repr radius lat_col lon_col "" n infile st
    = (Ok tt,
       mkState (draws st)
         (outfile st
          ++ map stripped_line (filter (fun l => negb (blank l)) infile))%list
         (log st ++ records)%list) /\
    Forall (fun r => exists k, r = (ERROR, LineError k "empty separator"))
      records /\
    List.length records = count_nonblank infile.
Proof.
  induction infile as [| line rest IH]; intros n st.
  - exists []. cbn. rewrite !app_nil_r. destruct st; auto.
  - cbn [for_lines filter]. unfold bind, count_nonblank. cbn [filter].
    destruct (blank line) eqn:Hb; cbn [negb].
    + rewrite process_line_blank by exact Hb. apply IH.
    + assert (E : process_line rand float_repr radius lat_col lon_col "" n
                    line st
                  = (Ok tt,
                     mkState (draws st) (outfile st ++ [stripped_line line])%list
                       (log st ++ [(ERROR, LineError n "empty separator")])%list)).
      { unfold process_line. unfold blank in Hb. rewrite Hb. reflexivity. }
      rewrite E.
      destruct (IH (n + 1)%Z
                  (mkState (draws st) (outfile st ++ [stripped_line line])%list
                     (log st ++ [(ERROR, LineError n "empty separator")])%list))
        as (records & E' & Hall & Hlen).
      exists ((ERROR, LineError n "empty separator") :: records).
      split; [| split].
      * rewrite E'. cbn [draws outfile log map].
        now rewrite <- !app_assoc.
      * constructor; [now exists n | exact Hall].
      * cbn [List.length]. now rewrite Hlen.
Qed.

(** X10. With an empty delimiter nothing is fuzzed, whatever the columns are:
    the output receives exactly the lines that are not blank, stripped, in
    order, no draw is made, and one error [empty separator] is logged per
    such line. *)
Theorem empty_delimiter_passes_every_line_through infile radius lat_col lon_col
    header st :
  (header = true -> infile <> []) ->
  exists records,
    process_file rand float_repr infile radius lat_col lon_col "" header st
    = (Ok tt,
       mkState (draws st)
         (outfile st
          ++ map stripped_line
               (filter (fun l => negb (blank l)) (after_header header infile)))%list
         (log st ++ records)%list) /\
    Forall (fun r => exists k, r = (ERROR, LineError k "empty separator"))
      records /\
    List.length records = count_nonblank (after_header header infile).
Proof.
  intros Hne.
  assert (body : forall lines,
    exists records,
      process_file rand float_repr lines radius lat_col lon_col "" false st
      = (Ok tt,
         mkState (draws st)
           (outfile st
            ++ map stripped_line (filter (fun l => negb (blank l)) lines))%list
           (log st ++ records)%list) /\
      Forall (fun r => exists k, r = (ERROR, LineError k "empty separator"))
        records /\
      List.length records = count_nonblank lines).
  { intros lines.
    destruct (for_lines_empty_delimiter radius lat_col lon_col lines 1%Z st)
      as (records & E & H).
    exists records. split; [| exact H].
    unfold process_file, except_Exception, bind, ret. now rewrite E. }
  destruct header; [destruct infile as [| first rest] |].
  - now destruct (Hne eq_refl).
  - rewrite process_file_header. apply body.
  - apply body.
Qed.

(** X11. A negative column index that reaches before the first field of a line
    raises [IndexError], which the handler of the loop does not catch: the
    pass ends there with the exception logged, nothing is written for the
    line and the lines after it are not read. *)
Theorem column_before_the_first_field_ends_the_pass line rest radius
    lat_col lon_col delimiter parts st :
  blank line = false ->
  split (PyStr.strip line) delimiter = Ok parts ->
  (Z.max lat_col lon_col < Z.of_nat (List.length parts))%Z ->
  (lat_col < - Z.of_nat (List.length parts)
   \/ lon_col < - Z.of_nat (List.length parts))%Z ->
  exists msg,
    process_file rand float_repr (line :: rest) radius lat_col lon_col
      delimiter false st
    = (Raise (IndexError msg), after_log ERROR (UnexpectedError (IndexError msg)) st).
Proof.
  intros Hb Hsplit Hmax Hneg. unfold blank in Hb.
  assert (none : forall i, (i < - Z.of_nat (List.length parts))%Z ->
            PyList.position (List.length parts) i = None).
  { intros i Hi. unfold PyList.position.
    destruct (Z.leb_spec 0 i); [lia |]. cbn [andb].
    destruct (Z.leb_spec (- Z.of_nat (List.length parts)) i); [lia |].
    reflexivity. }
  exists "list index out of range".
  unfold process_file, except_Exception. unfold bind at 1. unfold ret at 1.
  cbn [for_lines]. unfold bind at 1.
  unfold process_line. rewrite Hb, Hsplit.
  unfold except_ValueError, bind at 1. unfold lift at 1.
  destruct (Z.leb_spec (Z.of_nat (List.length parts)) (Z.max lat_col lon_col));
    [lia |].
  unfold PyList.getitem.
  destruct (PyList.position (List.length parts) lat_col) as [i |] eqn:Hi.
  - destruct Hneg as [Hneg | Hneg]; [rewrite none in Hi by exact Hneg; discriminate |].
    rewrite (none lon_col Hneg).
    destruct (nth_error parts i); reflexivity.
  - reflexivity.
Qed.

End PipelineEdges.

(** ** What a fuzzed line keeps *)

Section PipelineFrame.

Variable rand : nat -> R.
Variable float_repr : pyfloat -> string.
Hypothesis rand_unit : forall k, (0 <= rand k < 1)%R.




End PipelineFrame.

(** ** The properties above at concrete inputs *)



Lemma nan_radius_is_not_rejected_witness :
  fuzz_coordinate zero_rand (PyStr "40.0") (PyStr "-70.0") (PyFloat NaN) start
  = (Ok (PyInt 90, PyInt 180), after_draws 2 start).
Proof.
  apply (nan_radius_is_not_rejected zero_rand zero_rand_unit
           (PyStr "40.0") (PyStr "-70.0") (PyFloat NaN)
           (Q2R (400 # 10)) (Q2R (- 700 # 10)) start).
  - exact float_40.
  - exact float_minus_70.
  - unfold Q2R. simpl. lra.
  - unfold Q2R. simpl. lra.
  - reflexivity.
Defined.

Lemma infinite_radius_pins_to_the_bounds_witness :
  exists new_latitude new_longitude,
    fuzz_coordinate zero_rand (PyStr "40.0") (PyStr "-70.0")
      (PyFloat (Inf false)) start
    = (Ok (new_latitude, new_longitude), after_draws 2 start) /\
    (new_latitude = PyInt (-90) \/ new_latitude = PyInt 90) /\
    (new_longitude = PyInt (-180) \/ new_longitude = PyInt 180).
Proof.
  apply (infinite_radius_pins_to_the_bounds zero_rand zero_rand_unit
           (PyStr "40.0") (PyStr "-70.0") (PyFloat (Inf false))
           (Q2R (400 # 10)) (Q2R (- 700 # 10)) start).
  - exact float_40.
  - exact float_minus_70.
  - unfold Q2R. simpl. lra.
  - unfold Q2R. simpl. lra.
  - reflexivity.
Defined.




Lemma join_of_split_is_the_line_witness :
  exists first others,
    split "40.0,-70.0" "," = Ok (first :: others) /\
    PyStr.join "," (first :: others) = "40.0,-70.0".
Proof.
  apply (proj2 (join_of_split_is_the_line "40.0,-70.0" ",")).
  discriminate.
Defined.

Lemma blank_lines_only_advance_the_line_number_witness :
  for_lines zero_rand opaque_repr default_radius 0 1 "," 1
    ([PyStr.newline; "  " ++ PyStr.newline] ++ ["40.0" ++ PyStr.newline]) start
  = for_lines zero_rand opaque_repr default_radius 0 1 ","
      (1 + Z.of_nat (List.length [PyStr.newline; "  " ++ PyStr.newline]))
      ["40.0" ++ PyStr.newline] start.
Proof.
  apply (blank_lines_only_advance_the_line_number zero_rand opaque_repr
           default_radius 0 1 "," [PyStr.newline; "  " ++ PyStr.newline]
           ["40.0" ++ PyStr.newline] 1 start).
  repeat constructor.
Defined.

Lemma empty_delimiter_passes_every_line_through_witness :
  exists records,
    process_file zero_rand opaque_repr
      [(" 40.0,-70.0" ++ PyStr.newline)%string; PyStr.newline]
      default_radius 0 1 "" false start
    = (Ok tt,
       mkState (draws start)
         (outfile start
          ++ map stripped_line
               (filter (fun l => negb (blank l))
                  (after_header false
                     [(" 40.0,-70.0" ++ PyStr.newline)%string; PyStr.newline])))%list
         (log start ++ records)%list) /\
    Forall (fun r => exists k, r = (ERROR, LineError k "empty separator"))
      records /\
    List.length records
    = count_nonblank
        (after_header false [(" 40.0,-70.0" ++ PyStr.newline)%string; PyStr.newline]).
Proof.
  apply (empty_delimiter_passes_every_line_through zero_rand opaque_repr
           [(" 40.0,-70.0" ++ PyStr.newline)%string; PyStr.newline]
           default_radius 0 1 false start).
  discriminate.
Defined.

Lemma column_before_the_first_field_ends_the_pass_witness :
  exists msg,
    process_file zero_rand opaque_repr
      ["a,b" ++ PyStr.newline; "40.0,-70.0" ++ PyStr.newline]
      default_radius (-3) 0 "," false start
    = (Raise (IndexError msg),
       after_log ERROR (UnexpectedError (IndexError msg)) start).
Proof.
  apply (column_before_the_first_field_ends_the_pass zero_rand opaque_repr
           ("a,b" ++ PyStr.newline) ["40.0,-70.0" ++ PyStr.newline]
           default_radius (-3) 0 "," ["a"; "b"] start).
  - reflexivity.
  - reflexivity.
  - cbn. lia.
  - left. cbn. lia.
Defined.



